(** * Kinematic parameters of the DWB local planner

    A shallow embedding of
    [nav2_dwb_controller/dwb_plugins/src/kinematic_parameters.cpp]:
    the limits record [KinematicParameters], its constructor, the start-up
    routine [initialize] with [setDecelerationAsNeeded], the dynamic
    reconfiguration callback [reconfigureCB] and the admissibility predicate
    [isValidSpeed].

    C++ [double] is modelled by the IEEE 754 binary64 instance of the
    Standard Library's executable specification of floating-point
    arithmetic ([SpecFloat], precision 53, maximal exponent 1024), so that
    signed zeros, infinities, NaN and rounding behave as in the program.
    The ROS parameter store of a node and the view of the dynamic
    parameters client are finite maps from parameter names to doubles. *)

From Stdlib Require Import ZArith Bool Lia.
From Stdlib Require Import Floats.SpecFloat.
From stdpp Require Import gmap strings.

(** ** IEEE 754 binary64 *)

Module Double.

Definition prec : Z := 53.
Definition emax : Z := 1024.

(** A C++ [double].  [spec_float] has a single NaN (no payload). *)
Definition double : Type := spec_float.

Definition mul (a b : double) : double := SFmul prec emax a b.
Definition add (a b : double) : double := SFadd prec emax a b.
Definition div (a b : double) : double := SFdiv prec emax a b.
Definition neg (a : double) : double := SFopp a.
Definition fabs (a : double) : double := SFabs a.

(** The comparison operators of C++ on doubles: every one of them is
    false as soon as an operand is NaN. *)
Definition eqb (a b : double) : bool := SFeqb a b.
Definition ltb (a b : double) : bool := SFltb a b.
Definition leb (a b : double) : bool := SFleb a b.
Definition gtb (a b : double) : bool := SFltb b a.
Definition geb (a b : double) : bool := SFleb b a.
(** [a != b] is the negation of [a == b], hence true on NaN. *)
Definition neqb (a b : double) : bool := negb (SFeqb a b).

(** Conversion of an integer (round to nearest even). *)
Definition of_Z (n : Z) : double := binary_normalize prec emax n 0 false.

(** The double closest to the decimal [n / 10^k], as the compiler reads
    the literal: [n] and [10^k] are exact doubles for the literals of this
    development, and division rounds correctly. *)
Definition decimal (n : Z) (k : nat) : double :=
  div (of_Z n) (of_Z (10 ^ Z.of_nat k)).

Definition zero : double := S754_zero false.
Definition nan : double := S754_nan.

Definition is_nan (a : double) : bool :=
  match a with S754_nan => true | _ => false end.

(** Not NaN, and the sign bit is clear: [+0], a positive finite double
    or [+inf]. *)
Definition sign_clear (a : double) : bool :=
  match a with
  | S754_zero s | S754_infinity s | S754_finite s _ _ => negb s
  | S754_nan => false
  end.

End Double.

Import Double.

Declare Scope double_scope.
Delimit Scope double_scope with D.
Bind Scope double_scope with double.
Infix "*" := mul : double_scope.
Infix "+" := add : double_scope.
Notation "- a" := (neg a) : double_scope.
Infix "==" := eqb (at level 70, no associativity) : double_scope.
Infix "!=" := neqb (at level 70, no associativity) : double_scope.
Infix "<" := ltb : double_scope.
Infix ">" := gtb : double_scope.
Infix ">=" := geb : double_scope.
Notation "0.0" := zero : double_scope.

(** ** The parameter store of a node *)

(** [rclcpp::Node] parameters that hold doubles: [get_parameter(name, v)]
    is the lookup ([Some v] when it returns true and writes [v]),
    [set_parameters({Parameter(name, v)})] is the insertion. *)
Definition get_parameter (nh : gmap string double) (name : string)
  : option double := nh !! name.

Definition set_parameter (nh : gmap string double) (name : string)
  (v : double) : gmap string double := <[name := v]> nh.

(** Helper that sets the deceleration to the negative acceleration if it
    was not already set. *)
Definition setDecelerationAsNeeded (nh : gmap string double)
  (dimension : string) : gmap string double :=
  let decel_param := "decel_lim_" +:+ dimension in
  match get_parameter nh decel_param with
  | Some _ => nh
  | None =>
      let accel_param := "acc_lim_" +:+ dimension in
      match get_parameter nh accel_param with
      | None => nh
      | Some accel => set_parameter nh decel_param (- accel)%D
      end
  end.

(** ** The limits *)

Record KinematicParameters : Type := mkKinematicParameters {
  min_vel_x_ : double;
  min_vel_y_ : double;
  max_vel_x_ : double;
  max_vel_y_ : double;
  max_vel_theta_ : double;
  min_speed_xy_ : double;
  max_speed_xy_ : double;
  min_speed_theta_ : double;
  acc_lim_x_ : double;
  acc_lim_y_ : double;
  acc_lim_theta_ : double;
  decel_lim_x_ : double;
  decel_lim_y_ : double;
  decel_lim_theta_ : double;
  min_speed_xy_sq_ : double;
  max_speed_xy_sq_ : double
}.

(** The constructor [KinematicParameters::KinematicParameters()]. *)
Definition KinematicParameters_ctor : KinematicParameters :=
  {| min_vel_x_ := 0.0; min_vel_y_ := 0.0; max_vel_x_ := 0.0;
     max_vel_y_ := 0.0; max_vel_theta_ := 0.0;
     min_speed_xy_ := 0.0; max_speed_xy_ := 0.0; min_speed_theta_ := 0.0;
     acc_lim_x_ := 0.0; acc_lim_y_ := 0.0; acc_lim_theta_ := 0.0;
     decel_lim_x_ := 0.0; decel_lim_y_ := 0.0; decel_lim_theta_ := 0.0;
     min_speed_xy_sq_ := 0.0; max_speed_xy_sq_ := 0.0 |}%D.

(** ** Start-up *)

(** The names handed to [dsrv_->add_parameters]. *)
Definition registered_parameters : list string :=
  [ "min_vel_x"; "min_vel_y"; "max_vel_x"; "max_vel_y"; "max_vel_theta";
    "min_speed_xy"; "max_speed_xy"; "min_speed_theta";
    "acc_lim_x"; "acc_lim_y"; "acc_lim_theta";
    "decel_lim_x"; "decel_lim_y"; "decel_lim_theta" ].

(** Modelled from the spec: [nav_2d_utils::moveDeprecatedParameter] lives in
    [nav_2d_utils/parameters.hpp], which is not part of the sources at hand.
    A deprecated key is mapped onto the current name; if both the old and
    the new name are present, the new one wins. *)
Definition moveDeprecatedParameter_spec (nh : gmap string double)
  (current_name old_name : string) : gmap string double :=
  match get_parameter nh old_name with
  | None => nh
  | Some value =>
      match get_parameter nh current_name with
      | Some _ => nh
      | None => set_parameter nh current_name value
      end
  end.

Section Initialize.

(** [initialize] is written against any implementation of the renaming
    helper; what matters to the deceleration defaults is only that the
    helper writes no key other than [current_name]. *)
Variable moveDeprecatedParameter :
  gmap string double -> string -> string -> gmap string double.

(** The effect of [KinematicParameters::initialize] on the parameters of
    the node [nh].  (The remaining statements create the dynamic
    parameters client, register [registered_parameters] with it and
    install [reconfigureCB] as its callback.) *)
Definition initialize (nh : gmap string double) : gmap string double :=
  let nh := moveDeprecatedParameter nh "max_vel_theta" "max_rot_vel" in
  let nh := moveDeprecatedParameter nh "min_speed_xy" "min_trans_vel" in
  let nh := moveDeprecatedParameter nh "max_speed_xy" "max_trans_vel" in
  let nh := moveDeprecatedParameter nh "min_speed_theta" "min_rot_vel" in
  let nh := setDecelerationAsNeeded nh "x" in
  let nh := setDecelerationAsNeeded nh "y" in
  let nh := setDecelerationAsNeeded nh "theta" in
  nh.

End Initialize.

(** ** Dynamic reconfiguration *)

(** Modelled from the spec: [DynamicParamsClient::get_event_param_or] lives
    in [nav2_dynamic_params], which is not part of the sources at hand.
    [dsrv] is the client's view of the registered parameters at the time of
    the callback; the value found under [name] is stored, and the default
    when the name is absent. *)
Definition get_event_param_or (dsrv : gmap string double) (name : string)
  (default_value : double) : double :=
  match dsrv !! name with
  | Some v => v
  | None => default_value
  end.

(** [UPDATE_PARAMETER(name)] stores [get_event_param_or(#name, name_, 0.0)]
    into the field [name_]. *)
Definition UPDATE_PARAMETER (dsrv : gmap string double) (name : string)
  : double := get_event_param_or dsrv name 0.0%D.

Definition reconfigureCB (dsrv : gmap string double)
  (k : KinematicParameters) : KinematicParameters :=
  let min_vel_x := UPDATE_PARAMETER dsrv "min_vel_x" in
  let min_vel_y := UPDATE_PARAMETER dsrv "min_vel_y" in
  let max_vel_x := UPDATE_PARAMETER dsrv "max_vel_x" in
  let max_vel_y := UPDATE_PARAMETER dsrv "max_vel_y" in
  let max_vel_theta := UPDATE_PARAMETER dsrv "max_vel_theta" in
  let min_speed_xy := UPDATE_PARAMETER dsrv "min_speed_xy" in
  let max_speed_xy := UPDATE_PARAMETER dsrv "max_speed_xy" in
  let min_speed_xy_sq := (min_speed_xy * min_speed_xy)%D in
  let max_speed_xy_sq := (max_speed_xy * max_speed_xy)%D in
  let min_speed_theta := UPDATE_PARAMETER dsrv "min_speed_theta" in
  let acc_lim_x := UPDATE_PARAMETER dsrv "acc_lim_x" in
  let acc_lim_y := UPDATE_PARAMETER dsrv "acc_lim_y" in
  let acc_lim_theta := UPDATE_PARAMETER dsrv "acc_lim_theta" in
  let decel_lim_x := UPDATE_PARAMETER dsrv "decel_lim_x" in
  let decel_lim_y := UPDATE_PARAMETER dsrv "decel_lim_y" in
  let decel_lim_theta := UPDATE_PARAMETER dsrv "decel_lim_theta" in
  {| min_vel_x_ := min_vel_x; min_vel_y_ := min_vel_y;
     max_vel_x_ := max_vel_x; max_vel_y_ := max_vel_y;
     max_vel_theta_ := max_vel_theta;
     min_speed_xy_ := min_speed_xy; max_speed_xy_ := max_speed_xy;
     min_speed_theta_ := min_speed_theta;
     acc_lim_x_ := acc_lim_x; acc_lim_y_ := acc_lim_y;
     acc_lim_theta_ := acc_lim_theta;
     decel_lim_x_ := decel_lim_x; decel_lim_y_ := decel_lim_y;
     decel_lim_theta_ := decel_lim_theta;
     min_speed_xy_sq_ := min_speed_xy_sq;
     max_speed_xy_sq_ := max_speed_xy_sq |}.

(** ** The admissibility predicate *)

Definition vmag_sq (x y : double) : double := (x * x + y * y)%D.

(** The condition of the first [if]: the planar speed exceeds an enabled
    upper bound. *)
Definition exceeds_max_speed (k : KinematicParameters) (v : double) : bool :=
  (max_speed_xy_ k >= 0.0)%D && (v > max_speed_xy_sq_ k)%D.

(** The condition of the second [if]: too slow in translation and in
    rotation, both floors being enabled. *)
Definition below_both_floors (k : KinematicParameters) (v theta : double)
  : bool :=
  (min_speed_xy_ k >= 0.0)%D && (v < min_speed_xy_sq_ k)%D &&
  (min_speed_theta_ k >= 0.0)%D && (fabs theta < min_speed_theta_ k)%D.

(** The condition of the third [if]: an exact stop. *)
Definition is_stop (v theta : double) : bool :=
  (v == 0.0)%D && (theta == 0.0)%D.

Definition isValidSpeed (k : KinematicParameters) (x y theta : double)
  : bool :=
  let vmag_sq := vmag_sq x y in
  if exceeds_max_speed k vmag_sq then false
  else if below_both_floors k vmag_sq theta then false
  else if is_stop vmag_sq theta then false
  else true.

(** ** Variants of the predicate with one check removed *)

(** The predicate without the upper planar-speed check. *)
Definition isValidSpeed_without_max_check (k : KinematicParameters)
  (x y theta : double) : bool :=
  let vmag_sq := vmag_sq x y in
  if below_both_floors k vmag_sq theta then false
  else if is_stop vmag_sq theta then false
  else true.

(** The predicate without the check of the two floors, the only check that
    reads [min_speed_xy_] and [min_speed_theta_]. *)
Definition isValidSpeed_without_floor_check (k : KinematicParameters)
  (x y theta : double) : bool :=
  let vmag_sq := vmag_sq x y in
  if exceeds_max_speed k vmag_sq then false
  else if is_stop vmag_sq theta then false
  else true.

(** ** The life of a model: one construction, then updates and queries *)

Inductive operation : Type :=
| Update (dsrv : gmap string double)
| Query (x y theta : double).

(** One operation on the model: the next state and, for a query, its
    answer.  A query leaves the limits as they are. *)
Definition step (k : KinematicParameters) (o : operation)
  : KinematicParameters * option bool :=
  match o with
  | Update dsrv => (reconfigureCB dsrv k, None)
  | Query x y theta => (k, Some (isValidSpeed k x y theta))
  end.

Fixpoint run (k : KinematicParameters) (ops : list operation)
  : KinematicParameters :=
  match ops with
  | [] => k
  | o :: ops => run (fst (step k o)) ops
  end.

(** The queries of [ops] in order, each with the state it is evaluated in
    and its answer. *)
Fixpoint queries (k : KinematicParameters) (ops : list operation)
  : list (KinematicParameters * bool) :=
  match ops with
  | [] => []
  | o :: ops =>
      let (k', answer) := step k o in
      match answer with
      | Some b => (k, b) :: queries k' ops
      | None => queries k' ops
      end
  end.

(** The squared caches are the squares of their sources. *)
Definition caches_consistent (k : KinematicParameters) : Prop :=
  min_speed_xy_sq_ k = (min_speed_xy_ k * min_speed_xy_ k)%D /\
  max_speed_xy_sq_ k = (max_speed_xy_ k * max_speed_xy_ k)%D.

(** ** Axes *)

Inductive axis : Type := X | Y | Theta.

(** The string that [initialize] passes for an axis. *)
Definition dimension (d : axis) : string :=
  match d with X => "x" | Y => "y" | Theta => "theta" end.

Definition decel_param (d : axis) : string := "decel_lim_" +:+ dimension d.
Definition accel_param (d : axis) : string := "acc_lim_" +:+ dimension d.

(** The deceleration field of an axis. *)
Definition decel_lim_ (d : axis) (k : KinematicParameters) : double :=
  match d with
  | X => decel_lim_x_ k
  | Y => decel_lim_y_ k
  | Theta => decel_lim_theta_ k
  end.

(** ** Literals and the scenario of the specification *)

(** [1.0], [2.0], [0.05], [0.2], [0.1], [0.9], [0.04]. *)
Definition d_1_0 : double := of_Z 1.
Definition d_2_0 : double := of_Z 2.
Definition d_0_05 : double := decimal 5 2.
Definition d_0_2 : double := decimal 2 1.
Definition d_0_1 : double := decimal 1 1.
Definition d_0_9 : double := decimal 9 1.
Definition d_0_04 : double := decimal 4 2.

(** Limits [max_speed_xy = 1.0] (squared [1.0]), [min_speed_xy = 0.2]
    (squared [0.04]), [min_speed_theta = 0.1]; every other limit zero. *)
Definition scenario_limits : KinematicParameters :=
  {| min_vel_x_ := 0.0; min_vel_y_ := 0.0; max_vel_x_ := 0.0;
     max_vel_y_ := 0.0; max_vel_theta_ := 0.0;
     min_speed_xy_ := d_0_2; max_speed_xy_ := d_1_0;
     min_speed_theta_ := d_0_1;
     acc_lim_x_ := 0.0; acc_lim_y_ := 0.0; acc_lim_theta_ := 0.0;
     decel_lim_x_ := 0.0; decel_lim_y_ := 0.0; decel_lim_theta_ := 0.0;
     min_speed_xy_sq_ := d_0_04; max_speed_xy_sq_ := d_1_0 |}%D.

(** The same limits as a batch handed to the update. *)
Definition scenario_update : gmap string double :=
  {[ "max_speed_xy" := d_1_0; "min_speed_xy" := d_0_2;
     "min_speed_theta" := d_0_1 ]}.

(** Two models that agree on the five fields read by the predicate and on
    nothing else. *)
Definition scenario_limits_other_axes : KinematicParameters :=
  {| min_vel_x_ := d_0_9; min_vel_y_ := d_0_1; max_vel_x_ := d_2_0;
     max_vel_y_ := d_0_2; max_vel_theta_ := d_1_0;
     min_speed_xy_ := d_0_2; max_speed_xy_ := d_1_0;
     min_speed_theta_ := d_0_1;
     acc_lim_x_ := d_2_0; acc_lim_y_ := d_1_0; acc_lim_theta_ := d_0_9;
     decel_lim_x_ := (- d_2_0); decel_lim_y_ := (- d_1_0);
     decel_lim_theta_ := (- d_0_9);
     min_speed_xy_sq_ := d_0_04; max_speed_xy_sq_ := d_1_0 |}%D.

(** Limits with every bound that has a sentinel disabled ([-1.0]). *)
Definition all_disabled : KinematicParameters :=
  {| min_vel_x_ := 0.0; min_vel_y_ := 0.0; max_vel_x_ := 0.0;
     max_vel_y_ := 0.0; max_vel_theta_ := 0.0;
     min_speed_xy_ := (- d_1_0); max_speed_xy_ := (- d_1_0);
     min_speed_theta_ := (- d_1_0);
     acc_lim_x_ := 0.0; acc_lim_y_ := 0.0; acc_lim_theta_ := 0.0;
     decel_lim_x_ := 0.0; decel_lim_y_ := 0.0; decel_lim_theta_ := 0.0;
     min_speed_xy_sq_ := d_1_0; max_speed_xy_sq_ := d_1_0 |}%D.

(** ** Classes of doubles and of operations *)

Definition infinity : double := S754_infinity false.

(** [+inf] or [-inf]. *)
Definition is_infinite (a : double) : bool :=
  match a with S754_infinity _ => true | _ => false end.

(** Neither NaN nor infinite. *)
Definition is_finite (a : double) : bool :=
  match a with S754_zero _ | S754_finite _ _ _ => true | _ => false end.

(** [2^600], a finite double whose square overflows. *)
Definition d_2_pow_600 : double := S754_finite false 4503599627370496 548.

Definition is_query (o : operation) : bool :=
  match o with Query _ _ _ => true | Update _ => false end.

(** The acceleration field of an axis. *)
Definition acc_lim_ (d : axis) (k : KinematicParameters) : double :=
  match d with
  | X => acc_lim_x_ k
  | Y => acc_lim_y_ k
  | Theta => acc_lim_theta_ k
  end.

(** The parameters [initialize] may write: the four current names of the
    renamed parameters and the three deceleration limits. *)
Definition written_by_initialize : list string :=
  [ "max_vel_theta"; "min_speed_xy"; "max_speed_xy"; "min_speed_theta";
    "decel_lim_x"; "decel_lim_y"; "decel_lim_theta" ].

(** The field that [UPDATE_PARAMETER(name)] assigns: [name ## _]. *)
Definition limit_field (name : string) (k : KinematicParameters)
  : option double :=
  if decide (name = "min_vel_x") then Some (min_vel_x_ k)
  else if decide (name = "min_vel_y") then Some (min_vel_y_ k)
  else if decide (name = "max_vel_x") then Some (max_vel_x_ k)
  else if decide (name = "max_vel_y") then Some (max_vel_y_ k)
  else if decide (name = "max_vel_theta") then Some (max_vel_theta_ k)
  else if decide (name = "min_speed_xy") then Some (min_speed_xy_ k)
  else if decide (name = "max_speed_xy") then Some (max_speed_xy_ k)
  else if decide (name = "min_speed_theta") then Some (min_speed_theta_ k)
  else if decide (name = "acc_lim_x") then Some (acc_lim_x_ k)
  else if decide (name = "acc_lim_y") then Some (acc_lim_y_ k)
  else if decide (name = "acc_lim_theta") then Some (acc_lim_theta_ k)
  else if decide (name = "decel_lim_x") then Some (decel_lim_x_ k)
  else if decide (name = "decel_lim_y") then Some (decel_lim_y_ k)
  else if decide (name = "decel_lim_theta") then Some (decel_lim_theta_ k)
  else None.

(** * Properties *)

(** ** Comparisons of doubles *)

Section Comparisons.

Lemma SFcompare_antisym (a b : double) :
  SFcompare b a = option_map CompOpp (SFcompare a b).
Proof.
  destruct a as [sa|sa| |sa ma ea], b as [sb|sb| |sb mb eb]; simpl;
    try reflexivity;
    try (destruct sa; reflexivity);
    try (destruct sb; reflexivity);
    try (destruct sa, sb; reflexivity).
  destruct sa, sb; simpl; try reflexivity;
    rewrite (Z.compare_antisym eb ea);
    destruct (eb ?= ea)%Z; simpl; try reflexivity; f_equal;
    first [ exact (eq_sym (Pos.compare_cont_antisym ma mb Eq))
          | rewrite CompOpp_involutive;
            exact (Pos.compare_cont_antisym mb ma Eq) ].
Qed.

(** [a >= b] excludes [a < b]. *)
Lemma geb_not_ltb (a b : double) : (a >= b)%D = true -> (a < b)%D = false.
Proof.
  unfold geb, ltb, SFleb, SFltb. rewrite (SFcompare_antisym a b).
  destruct (SFcompare a b) as [[ | | ]|]; simpl; congruence.
Qed.

(** A negative double is not [>= 0.0]. *)
Lemma negative_not_geb_zero (a : double) :
  (a < 0.0)%D = true -> (a >= 0.0)%D = false.
Proof.
  intros H. destruct (a >= 0.0)%D eqn:E; [|reflexivity].
  apply geb_not_ltb in E. congruence.
Qed.

(** Nothing of the form [fabs t] is below zero. *)
Lemma fabs_not_below_zero (t : double) : (fabs t < 0.0)%D = false.
Proof. destruct t as [s|s| |s m e]; reflexivity. Qed.

(** Comparisons with NaN are false. *)
Lemma nan_compare (a b : double) :
  is_nan a = true \/ is_nan b = true -> SFcompare a b = None.
Proof.
  destruct a, b; simpl; intros [H|H]; try discriminate; reflexivity.
Qed.

Lemma nan_comparisons_false (a b : double) :
  is_nan a = true \/ is_nan b = true ->
  (a == b)%D = false /\ (a < b)%D = false /\ (a > b)%D = false /\
  (a >= b)%D = false /\ (a != b)%D = true.
Proof.
  intros H. unfold eqb, ltb, gtb, geb, neqb, SFeqb, SFltb, SFleb.
  rewrite (nan_compare a b H), (nan_compare b a) by tauto. auto.
Qed.

(** [==] is reflexive on everything but NaN. *)
Lemma eqb_refl (a : double) : is_nan a = false -> (a == a)%D = true.
Proof.
  unfold eqb, SFeqb.
  destruct a as [s|s| |s m e]; simpl; try reflexivity; try discriminate.
  - now destruct s.
  - intros _. rewrite Z.compare_refl.
    destruct s; simpl;
      change (PosDef.Pos.compare_cont Eq m m) with (Pos.compare m m);
      now rewrite Pos.compare_refl.
Qed.

Lemma sign_clear_not_nan (a : double) :
  sign_clear a = true -> is_nan a = false.
Proof. destruct a; simpl; congruence. Qed.

(** For a double whose sign bit is clear, "not above zero" is "equal to
    zero". *)
Lemma sign_clear_gtb_zero (v : double) :
  sign_clear v = true -> (v > 0.0)%D = negb (v == 0.0)%D.
Proof. destruct v as [[|]|[|]| |[|] m e]; cbv; congruence. Qed.

End Comparisons.

(** ** Signs of rounded results *)

Section Signs.

Lemma shr_1_nonneg (mrs : shr_record) :
  (0 <= shr_m mrs)%Z -> (0 <= shr_m (shr_1 mrs))%Z.
Proof.
  destruct mrs as [m r s]; simpl.
  destruct m as [|[p|p|]|[p|p|]]; simpl; lia.
Qed.

Lemma iter_pos_preserves {A : Type} (P : A -> Prop) (f : A -> A) :
  (forall a, P a -> P (f a)) ->
  forall (n : positive) (a : A), P a -> P (SpecFloat.iter_pos f n a).
Proof.
  intros Hf. induction n as [n IH|n IH|]; intros a Ha; simpl; auto.
Qed.

Lemma shr_nonneg (mrs : shr_record) (e n : Z) :
  (0 <= shr_m mrs)%Z -> (0 <= shr_m (fst (shr mrs e n)))%Z.
Proof.
  intros H. destruct n as [|p|p]; simpl; trivial.
  apply (iter_pos_preserves (fun r => (0 <= shr_m r)%Z));
    auto using shr_1_nonneg.
Qed.

Lemma shr_fexp_nonneg (m e : Z) (l : location) :
  (0 <= m)%Z -> (0 <= shr_m (fst (shr_fexp prec emax m e l)))%Z.
Proof.
  intros H. unfold shr_fexp. apply shr_nonneg.
  destruct l as [|[ | | ]]; simpl; exact H.
Qed.

Lemma round_nearest_even_nonneg (m : Z) (l : location) :
  (0 <= m)%Z -> (0 <= round_nearest_even m l)%Z.
Proof.
  intros H. destruct l as [|[ | | ]]; simpl; try lia.
  destruct (Z.even m); lia.
Qed.

(** Rounding a non-negative mantissa under a clear sign bit gives no NaN
    and leaves the sign bit clear. *)
Lemma binary_round_aux_sign_clear (mx ex : Z) (lx : location) :
  (0 <= mx)%Z ->
  sign_clear (binary_round_aux prec emax false mx ex lx) = true.
Proof.
  intros H. unfold binary_round_aux.
  pose proof (shr_fexp_nonneg mx ex lx H) as H1.
  destruct (shr_fexp prec emax mx ex lx) as [mrs' e']; simpl in H1.
  pose proof (shr_fexp_nonneg _ e' loc_Exact
                (round_nearest_even_nonneg _ (loc_of_shr_record mrs') H1))
    as H2.
  destruct (shr_fexp prec emax _ e' loc_Exact) as [mrs'' e'']; simpl in H2.
  destruct (shr_m mrs'') as [|p|p]; [reflexivity | | lia].
  destruct (e'' <=? emax - prec)%Z; reflexivity.
Qed.

(** The square of a double that is not NaN has a clear sign bit. *)
Lemma mul_self_sign_clear (x : double) :
  is_nan x = false -> sign_clear (x * x)%D = true.
Proof.
  destruct x as [[|]|[|]| |s m e]; simpl; try reflexivity;
    try discriminate.
  intros _. unfold mul; simpl. replace (xorb s s) with false
    by (now destruct s).
  apply binary_round_aux_sign_clear. lia.
Qed.

(** The sum of two doubles with clear sign bits has a clear sign bit. *)
Lemma add_sign_clear (a b : double) :
  sign_clear a = true -> sign_clear b = true ->
  sign_clear (a + b)%D = true.
Proof.
  destruct a as [[|]|[|]| |[|] ma ea], b as [[|]|[|]| |[|] mb eb];
    simpl; try reflexivity; try discriminate.
  intros _ _. unfold add; simpl. unfold binary_round.
  destruct (shl_align _ _ _) as [mz ez].
  apply binary_round_aux_sign_clear. lia.
Qed.

Lemma vmag_sq_sign_clear (x y : double) :
  is_nan x = false -> is_nan y = false ->
  sign_clear (vmag_sq x y) = true.
Proof.
  intros Hx Hy. unfold vmag_sq.
  apply add_sign_clear; apply mul_self_sign_clear; assumption.
Qed.

(** NaN in, NaN out. *)
Lemma vmag_sq_nan (x y : double) :
  is_nan x = true \/ is_nan y = true -> is_nan (vmag_sq x y) = true.
Proof.
  unfold vmag_sq, add, mul. intros [H|H].
  - destruct x; try discriminate. simpl.
    destruct (SFmul prec emax y y); reflexivity.
  - destruct y; try discriminate. simpl.
    destruct (SFmul prec emax x x) as [[|]|[|]| |s m e]; reflexivity.
Qed.

End Signs.

(** ** Literals *)

(** The decimal literals are the doubles a C++ compiler reads:
    [0.05 = 0x1.999999999999ap-5] and so on. *)
Example literals :
  d_1_0 = S754_finite false 4503599627370496 (-52) /\
  d_2_0 = S754_finite false 4503599627370496 (-51) /\
  d_0_05 = S754_finite false 7205759403792794 (-57) /\
  d_0_2 = S754_finite false 7205759403792794 (-55) /\
  d_0_1 = S754_finite false 7205759403792794 (-56) /\
  d_0_9 = S754_finite false 8106479329266893 (-53) /\
  d_0_04 = S754_finite false 5764607523034235 (-57).
Proof. vm_compute. repeat split. Qed.

(** [0.2 * 0.2] is not the literal [0.04] but its successor. *)
Example square_of_0_2 :
  (d_0_2 * d_0_2)%D = S754_finite false 5764607523034236 (-57).
Proof. vm_compute. reflexivity. Qed.

(** ** The three checks of [isValidSpeed] *)

Section Checks.

Variable k : KinematicParameters.
Variables x y theta : double.

(** The predicate accepts exactly when none of its three checks fires. *)
Lemma isValidSpeed_checks :
  isValidSpeed k x y theta =
  negb (exceeds_max_speed k (vmag_sq x y)) &&
  negb (below_both_floors k (vmag_sq x y) theta) &&
  negb (is_stop (vmag_sq x y) theta).
Proof.
  unfold isValidSpeed.
  destruct (exceeds_max_speed _ _), (below_both_floors _ _ _),
    (is_stop _ _); reflexivity.
Qed.

Lemma without_max_check_checks :
  isValidSpeed_without_max_check k x y theta =
  negb (below_both_floors k (vmag_sq x y) theta) &&
  negb (is_stop (vmag_sq x y) theta).
Proof.
  unfold isValidSpeed_without_max_check.
  destruct (below_both_floors _ _ _), (is_stop _ _); reflexivity.
Qed.

Lemma without_floor_check_checks :
  isValidSpeed_without_floor_check k x y theta =
  negb (exceeds_max_speed k (vmag_sq x y)) &&
  negb (is_stop (vmag_sq x y) theta).
Proof.
  unfold isValidSpeed_without_floor_check.
  destruct (exceeds_max_speed _ _), (is_stop _ _); reflexivity.
Qed.

End Checks.

(** ** The answers of [isValidSpeed] *)

(** C1. In every state and for every input: if the lower planar-speed bound
    is enabled, the squared planar speed is below its squared floor, the
    rotational floor is enabled and [|theta|] is below it, then
    [isValidSpeed] returns false.  If the translational speed meets its
    floor or the rotational speed meets its floor, the check of the two
    floors does not fire: the answer is that of the predicate without this
    check. *)
Theorem C1_below_both_floors_rejected :
  (forall (k : KinematicParameters) (x y theta : double),
      (min_speed_xy_ k >= 0.0)%D = true ->
      (vmag_sq x y < min_speed_xy_sq_ k)%D = true ->
      (min_speed_theta_ k >= 0.0)%D = true ->
      (fabs theta < min_speed_theta_ k)%D = true ->
      isValidSpeed k x y theta = false) /\
  (forall (k : KinematicParameters) (x y theta : double),
      (vmag_sq x y >= min_speed_xy_sq_ k)%D = true \/
      (fabs theta >= min_speed_theta_ k)%D = true ->
      below_both_floors k (vmag_sq x y) theta = false /\
      isValidSpeed k x y theta =
      isValidSpeed_without_floor_check k x y theta).
Proof.
  split; intros k x y theta.
  - intros H1 H2 H3 H4. rewrite isValidSpeed_checks.
    unfold below_both_floors. rewrite H1, H2, H3, H4. simpl.
    now rewrite andb_false_r.
  - intros H.
    assert (below_both_floors k (vmag_sq x y) theta = false) as Hb.
    { unfold below_both_floors. destruct H as [H|H]; apply geb_not_ltb in H;
        rewrite H; now rewrite ?andb_false_r. }
    split; [exact Hb|].
    rewrite isValidSpeed_checks, without_floor_check_checks, Hb. simpl.
    now rewrite andb_true_r.
Qed.

(** C1 at the scenario limits: [(0.05, 0, 0.05)] is below both floors and
    is rejected; at [(0.05, 0, 0.2)] the rotation meets its floor. *)
Lemma C1_below_both_floors_rejected_witness :
  isValidSpeed scenario_limits d_0_05 0.0%D d_0_05 = false /\
  below_both_floors scenario_limits (vmag_sq d_0_05 0.0%D) d_0_2 = false /\
  isValidSpeed scenario_limits d_0_05 0.0%D d_0_2 =
  isValidSpeed_without_floor_check scenario_limits d_0_05 0.0%D d_0_2.
Proof.
  destruct C1_below_both_floors_rejected as [Hreject Hpass]. split.
  - apply Hreject; vm_compute; reflexivity.
  - apply Hpass. right. vm_compute. reflexivity.
Defined.

(** C2. In every state whose upper planar-speed bound is enabled
    ([max_speed_xy_ >= 0]), every input whose squared planar speed exceeds
    [max_speed_xy_sq_] is rejected, whatever [theta] is. *)
Theorem C2_above_max_speed_rejected
  (k : KinematicParameters) (x y theta : double) :
  (max_speed_xy_ k >= 0.0)%D = true ->
  (vmag_sq x y > max_speed_xy_sq_ k)%D = true ->
  isValidSpeed k x y theta = false.
Proof.
  intros H1 H2. unfold isValidSpeed, exceeds_max_speed.
  now rewrite H1, H2.
Qed.

Lemma C2_above_max_speed_rejected_witness :
  isValidSpeed scenario_limits d_0_9 d_0_9 d_2_0 = false.
Proof.
  apply C2_above_max_speed_rejected; vm_compute; reflexivity.
Defined.

(** C3. In every state [isValidSpeed(0, 0, 0)] is false; more generally
    every input with [x*x + y*y == 0.0] and [theta == 0.0] is rejected. *)
Theorem C3_stop_rejected :
  (forall k : KinematicParameters,
      isValidSpeed k 0.0%D 0.0%D 0.0%D = false) /\
  (forall (k : KinematicParameters) (x y theta : double),
      (vmag_sq x y == 0.0)%D = true -> (theta == 0.0)%D = true ->
      isValidSpeed k x y theta = false).
Proof.
  assert (forall (k : KinematicParameters) (x y theta : double),
             (vmag_sq x y == 0.0)%D = true -> (theta == 0.0)%D = true ->
             isValidSpeed k x y theta = false) as Hgen.
  { intros k x y theta Hv Ht. rewrite isValidSpeed_checks.
    unfold is_stop. rewrite Hv, Ht. simpl. now rewrite andb_false_r. }
  split; [|exact Hgen].
  intros k. apply Hgen; reflexivity.
Qed.

(** C3 at inputs that are not literally zero: a negative zero, and a speed
    so small that its square underflows to zero. *)
Lemma C3_stop_rejected_witness :
  isValidSpeed scenario_limits (- 0.0)%D 0.0%D (- 0.0)%D = false /\
  isValidSpeed all_disabled (S754_finite false 1 (-1074)) 0.0%D 0.0%D
  = false.
Proof.
  destruct C3_stop_rejected as [_ Hgen].
  split; apply Hgen; vm_compute; reflexivity.
Defined.

(** C4, as stated, fails: a NaN input is not rejected.  At the scenario
    limits the command [(NaN, 0, 0)] is accepted, and so is
    [(0.05, 0, NaN)]: every comparison with NaN is false, so no check
    fires. *)
Lemma C4_nan_rejected_counterexample :
  is_nan nan = true /\
  isValidSpeed scenario_limits nan 0.0%D 0.0%D = true /\
  isValidSpeed scenario_limits d_0_05 0.0%D nan = true.
Proof. vm_compute. repeat split. Qed.

(** C4, amended.  [isValidSpeed] is a total function to [bool]: it answers
    on every input, NaN and infinities included, and raises nothing.  NaN
    is not guarded and propagates through the comparisons, which are all
    false: when [x] or [y] is NaN the command is accepted in every state;
    when [theta] is NaN only the upper planar-speed check can reject. *)
Theorem C4_nan_unguarded
  (k : KinematicParameters) (x y theta : double) :
  (exists b : bool, isValidSpeed k x y theta = b) /\
  (is_nan x = true \/ is_nan y = true -> isValidSpeed k x y theta = true) /\
  (is_nan theta = true ->
   isValidSpeed k x y theta = negb (exceeds_max_speed k (vmag_sq x y))).
Proof.
  split; [eauto|split].
  - intros H. apply vmag_sq_nan in H.
    rewrite isValidSpeed_checks.
    unfold exceeds_max_speed, below_both_floors, is_stop.
    destruct (nan_comparisons_false (vmag_sq x y) 0.0%D) as (-> & _);
      [tauto|].
    destruct (nan_comparisons_false (vmag_sq x y) (max_speed_xy_sq_ k))
      as (_ & _ & -> & _); [tauto|].
    destruct (nan_comparisons_false (vmag_sq x y) (min_speed_xy_sq_ k))
      as (_ & -> & _); [tauto|].
    now rewrite !andb_false_r.
  - intros H. rewrite isValidSpeed_checks.
    unfold below_both_floors, is_stop.
    destruct (nan_comparisons_false theta 0.0%D) as (-> & _); [tauto|].
    destruct (nan_comparisons_false (fabs theta) (min_speed_theta_ k))
      as (_ & -> & _); [left; now destruct theta|].
    now rewrite !andb_false_r, !andb_true_r.
Qed.

Lemma C4_nan_unguarded_witness :
  isValidSpeed all_disabled d_0_9 nan d_0_1 = true /\
  isValidSpeed scenario_limits d_0_9 d_0_9 nan =
  negb (exceeds_max_speed scenario_limits (vmag_sq d_0_9 d_0_9)).
Proof.
  split.
  - destruct (C4_nan_unguarded all_disabled d_0_9 nan d_0_1)
      as (_ & Hxy & _).
    apply Hxy. right. reflexivity.
  - destruct (C4_nan_unguarded scenario_limits d_0_9 d_0_9 nan)
      as (_ & _ & Htheta).
    apply Htheta. reflexivity.
Defined.

(** C5. A bound set to a negative value is disabled: its check never
    fires, and [isValidSpeed] answers as the predicate with that check
    removed.  This holds for [max_speed_xy_] (the upper planar-speed check)
    and for [min_speed_xy_] and [min_speed_theta_] (the check of the two
    floors). *)
Theorem C5_disabled_bound_never_rejects :
  (forall (k : KinematicParameters) (x y theta : double),
      (max_speed_xy_ k < 0.0)%D = true ->
      exceeds_max_speed k (vmag_sq x y) = false /\
      isValidSpeed k x y theta =
      isValidSpeed_without_max_check k x y theta) /\
  (forall (k : KinematicParameters) (x y theta : double),
      (min_speed_xy_ k < 0.0)%D = true ->
      below_both_floors k (vmag_sq x y) theta = false /\
      isValidSpeed k x y theta =
      isValidSpeed_without_floor_check k x y theta) /\
  (forall (k : KinematicParameters) (x y theta : double),
      (min_speed_theta_ k < 0.0)%D = true ->
      below_both_floors k (vmag_sq x y) theta = false /\
      isValidSpeed k x y theta =
      isValidSpeed_without_floor_check k x y theta).
Proof.
  repeat split; intros; rewrite ?isValidSpeed_checks,
    ?without_max_check_checks, ?without_floor_check_checks;
    unfold exceeds_max_speed, below_both_floors;
    match goal with
    | H : (_ < 0.0)%D = true |- _ =>
        rewrite (negative_not_geb_zero _ H)
    end;
    cbn [andb negb]; rewrite ?andb_false_r, ?andb_true_r;
    cbn [andb negb]; rewrite ?andb_true_r; reflexivity.
Qed.

(** C5 with all three bounds at [-1.0] and squared caches [1.0]: the fast
    command [(0.9, 0.9, 0)] and the slow one [(0.05, 0, 0.05)] meet no
    enabled bound. *)
Lemma C5_disabled_bound_never_rejects_witness :
  (exceeds_max_speed all_disabled (vmag_sq d_0_9 d_0_9) = false /\
   isValidSpeed all_disabled d_0_9 d_0_9 0.0%D =
   isValidSpeed_without_max_check all_disabled d_0_9 d_0_9 0.0%D) /\
  (below_both_floors all_disabled (vmag_sq d_0_05 0.0%D) d_0_05 = false /\
   isValidSpeed all_disabled d_0_05 0.0%D d_0_05 =
   isValidSpeed_without_floor_check all_disabled d_0_05 0.0%D d_0_05) /\
  (below_both_floors all_disabled (vmag_sq d_0_05 0.0%D) 0.0%D = false /\
   isValidSpeed all_disabled d_0_05 0.0%D 0.0%D =
   isValidSpeed_without_floor_check all_disabled d_0_05 0.0%D 0.0%D).
Proof.
  destruct C5_disabled_bound_never_rejects as (Hmax & Hmin & Htheta).
  split; [|split].
  - apply Hmax. vm_compute. reflexivity.
  - apply Hmin. vm_compute. reflexivity.
  - apply Htheta. vm_compute. reflexivity.
Defined.

(** C7. With [max_speed_xy_ = 1.0] (squared [1.0]), [min_speed_xy_ = 0.2]
    (squared [0.04]) and [min_speed_theta_ = 0.1], whatever the other
    limits are: [(0.05, 0.0, 0.05)] is rejected, [(0.05, 0.0, 0.2)] is
    accepted and [(0.9, 0.9, 0)] is rejected. *)
Theorem C7_scenario (k : KinematicParameters) :
  max_speed_xy_ k = d_1_0 -> max_speed_xy_sq_ k = d_1_0 ->
  min_speed_xy_ k = d_0_2 -> min_speed_xy_sq_ k = d_0_04 ->
  min_speed_theta_ k = d_0_1 ->
  isValidSpeed k d_0_05 0.0%D d_0_05 = false /\
  isValidSpeed k d_0_05 0.0%D d_0_2 = true /\
  isValidSpeed k d_0_9 d_0_9 0.0%D = false.
Proof.
  intros H1 H2 H3 H4 H5.
  unfold isValidSpeed, exceeds_max_speed, below_both_floors, is_stop.
  rewrite H1, H2, H3, H4, H5. vm_compute. repeat split.
Qed.

Lemma C7_scenario_witness :
  isValidSpeed scenario_limits_other_axes d_0_05 0.0%D d_0_05 = false /\
  isValidSpeed scenario_limits_other_axes d_0_05 0.0%D d_0_2 = true /\
  isValidSpeed scenario_limits_other_axes d_0_9 d_0_9 0.0%D = false.
Proof. apply C7_scenario; reflexivity. Defined.

(** The same three answers in the state the update itself produces from
    the scenario batch, whose cache [0.2 * 0.2] is one unit in the last
    place above the literal [0.04]. *)
Lemma scenario_after_update (k : KinematicParameters) :
  let k' := reconfigureCB scenario_update k in
  isValidSpeed k' d_0_05 0.0%D d_0_05 = false /\
  isValidSpeed k' d_0_05 0.0%D d_0_2 = true /\
  isValidSpeed k' d_0_9 d_0_9 0.0%D = false.
Proof. vm_compute. repeat split. Qed.

(** C9, as stated, fails on NaN: in the default-constructed model the
    command [(NaN, 0, 1)] is accepted although [x*x + y*y == 0.0] is
    false. *)
Lemma C9_default_model_counterexample :
  isValidSpeed KinematicParameters_ctor nan 0.0%D d_1_0 = true /\
  (vmag_sq nan 0.0 == 0.0)%D = false.
Proof. vm_compute. split; reflexivity. Qed.

(** C9, amended.  In the default-constructed model (every limit and both
    caches [0.0]), for every input in which neither [x] nor [y] is NaN,
    [isValidSpeed] accepts if and only if [x*x + y*y == 0.0] and
    [theta != 0.0]: a limit of [0.0] is enforced as a zero bound, every
    command with a nonzero planar speed is rejected, and only pure
    rotations are accepted. *)
Theorem C9_default_model (x y theta : double) :
  is_nan x = false -> is_nan y = false ->
  (isValidSpeed KinematicParameters_ctor x y theta = true <->
   (vmag_sq x y == 0.0)%D = true /\ (theta != 0.0)%D = true).
Proof.
  intros Hx Hy. rewrite isValidSpeed_checks.
  unfold exceeds_max_speed, below_both_floors, is_stop, neqb. simpl.
  rewrite (sign_clear_gtb_zero _ (vmag_sq_sign_clear x y Hx Hy)).
  rewrite fabs_not_below_zero, !andb_false_r.
  change (0.0 >= 0.0)%D with true.
  change (SFeqb theta 0.0%D) with (theta == 0.0)%D.
  destruct (vmag_sq x y == 0.0)%D, (theta == 0.0)%D; simpl;
    intuition congruence.
Qed.

(** C9 (amended) at a pure rotation and at a translation. *)
Lemma C9_default_model_witness :
  (isValidSpeed KinematicParameters_ctor 0.0%D 0.0%D d_0_1 = true <->
   (vmag_sq 0.0 0.0 == 0.0)%D = true /\ (d_0_1 != 0.0)%D = true) /\
  (isValidSpeed KinematicParameters_ctor d_0_05 0.0%D d_0_1 = true <->
   (vmag_sq d_0_05 0.0 == 0.0)%D = true /\ (d_0_1 != 0.0)%D = true).
Proof.
  split.
  - apply (C9_default_model 0.0%D 0.0%D d_0_1); reflexivity.
  - apply (C9_default_model d_0_05 0.0%D d_0_1); reflexivity.
Defined.

(** C10. The answer of [isValidSpeed] depends on the state only through
    [max_speed_xy_], [max_speed_xy_sq_], [min_speed_xy_],
    [min_speed_xy_sq_] and [min_speed_theta_]: two states that agree on
    these five fields answer alike on every input, however they differ in
    the per-axis velocity bounds and the acceleration and deceleration
    limits. *)
Theorem C10_depends_on_five_fields
  (k1 k2 : KinematicParameters) (x y theta : double) :
  max_speed_xy_ k1 = max_speed_xy_ k2 ->
  max_speed_xy_sq_ k1 = max_speed_xy_sq_ k2 ->
  min_speed_xy_ k1 = min_speed_xy_ k2 ->
  min_speed_xy_sq_ k1 = min_speed_xy_sq_ k2 ->
  min_speed_theta_ k1 = min_speed_theta_ k2 ->
  isValidSpeed k1 x y theta = isValidSpeed k2 x y theta.
Proof.
  intros H1 H2 H3 H4 H5.
  unfold isValidSpeed, exceeds_max_speed, below_both_floors.
  now rewrite H1, H2, H3, H4, H5.
Qed.

(** C10 at two models that differ in all eleven other fields, for a
    command far outside the per-axis bounds of either. *)
Lemma C10_depends_on_five_fields_witness :
  min_vel_x_ scenario_limits <> min_vel_x_ scenario_limits_other_axes /\
  decel_lim_x_ scenario_limits <> decel_lim_x_ scenario_limits_other_axes /\
  isValidSpeed scenario_limits d_0_2 d_0_9 d_2_0 =
  isValidSpeed scenario_limits_other_axes d_0_2 d_0_9 d_2_0.
Proof.
  split; [discriminate|split; [discriminate|]].
  apply C10_depends_on_five_fields; reflexivity.
Defined.

(** ** The squared caches *)

Lemma ctor_caches_consistent : caches_consistent KinematicParameters_ctor.
Proof. split; reflexivity. Qed.

Lemma reconfigureCB_caches_consistent
  (dsrv : gmap string double) (k : KinematicParameters) :
  caches_consistent (reconfigureCB dsrv k).
Proof. split; reflexivity. Qed.

Lemma step_caches_consistent (k : KinematicParameters) (o : operation) :
  caches_consistent k -> caches_consistent (fst (step k o)).
Proof.
  intros H. destruct o as [dsrv|x y theta]; simpl.
  - apply reconfigureCB_caches_consistent.
  - exact H.
Qed.

Lemma run_caches_consistent (ops : list operation) :
  forall k : KinematicParameters,
    caches_consistent k -> caches_consistent (run k ops).
Proof.
  induction ops as [|o ops IH]; intros k H; simpl.
  - exact H.
  - apply IH, step_caches_consistent, H.
Qed.

Lemma queries_caches_consistent (ops : list operation) :
  forall k : KinematicParameters,
    caches_consistent k ->
    Forall (fun q => caches_consistent (fst q)) (queries k ops).
Proof.
  induction ops as [|o ops IH]; intros k H; simpl.
  - constructor.
  - pose proof (step_caches_consistent k o H) as H'.
    destruct o as [dsrv|x y theta]; simpl in *.
    + apply IH, H'.
    + constructor; [exact H|apply IH, H].
Qed.

(** Read with the [==] of C++, the consistency of a cache holds whenever
    its source is not NaN (NaN differs from itself under [==]). *)
Lemma caches_consistent_eqb (k : KinematicParameters) :
  caches_consistent k ->
  (is_nan (min_speed_xy_ k) = false ->
   (min_speed_xy_sq_ k == min_speed_xy_ k * min_speed_xy_ k)%D = true) /\
  (is_nan (max_speed_xy_ k) = false ->
   (max_speed_xy_sq_ k == max_speed_xy_ k * max_speed_xy_ k)%D = true).
Proof.
  intros [Hmin Hmax]. rewrite Hmin, Hmax.
  split; intros H; apply eqb_refl, sign_clear_not_nan,
    mul_self_sign_clear, H.
Qed.

(** A query answers, and leaves the limits untouched. *)
Lemma query_pure (k : KinematicParameters) (x y theta : double) :
  step k (Query x y theta) = (k, Some (isValidSpeed k x y theta)).
Proof. reflexivity. Qed.

(** C6. Right after construction and right after every run of
    [reconfigureCB], [min_speed_xy_sq_] is the product
    [min_speed_xy_ * min_speed_xy_] and [max_speed_xy_sq_] is
    [max_speed_xy_ * max_speed_xy_], as the very same double.  Hence in
    every sequence of updates and queries on a constructed model the state
    after the sequence, and every state a query is evaluated in, has
    consistent caches. *)
Theorem C6_caches_consistent :
  caches_consistent KinematicParameters_ctor /\
  (forall (dsrv : gmap string double) (k : KinematicParameters),
      caches_consistent (reconfigureCB dsrv k)) /\
  (forall ops : list operation,
      caches_consistent (run KinematicParameters_ctor ops)) /\
  (forall ops : list operation,
      Forall (fun q => caches_consistent (fst q))
        (queries KinematicParameters_ctor ops)).
Proof.
  split; [|split; [|split]].
  - exact ctor_caches_consistent.
  - exact reconfigureCB_caches_consistent.
  - intros ops. apply run_caches_consistent, ctor_caches_consistent.
  - intros ops. apply queries_caches_consistent, ctor_caches_consistent.
Qed.

(** The caches after the scenario batch, and a query between two updates:
    the second update omits [min_speed_xy], which falls back to [0.0], and
    its cache follows. *)
Example caches_after_updates :
  min_speed_xy_sq_ (reconfigureCB scenario_update KinematicParameters_ctor)
  = (d_0_2 * d_0_2)%D /\
  queries KinematicParameters_ctor
    [ Update scenario_update; Query d_0_05 0.0%D d_0_05;
      Update {[ "max_speed_xy" := d_2_0 ]}; Query d_0_9 d_0_9 0.0%D ]
  = [ (reconfigureCB scenario_update KinematicParameters_ctor, false);
      (reconfigureCB {[ "max_speed_xy" := d_2_0 ]}
         KinematicParameters_ctor, true) ].
Proof. vm_compute. split; reflexivity. Qed.

(** ** Deceleration defaults at start-up *)

(** [setDecelerationAsNeeded] writes no key but the deceleration limit of
    its axis. *)
Lemma setDecelerationAsNeeded_frame
  (nh : gmap string double) (d : axis) (key : string) :
  key <> decel_param d ->
  setDecelerationAsNeeded nh (dimension d) !! key = nh !! key.
Proof.
  intros Hne. unfold setDecelerationAsNeeded, get_parameter, set_parameter.
  fold (decel_param d). fold (accel_param d).
  destruct (nh !! decel_param d); [reflexivity|].
  destruct (nh !! accel_param d); [|reflexivity].
  apply lookup_insert_ne. congruence.
Qed.

(** What it leaves under that key. *)
Lemma setDecelerationAsNeeded_own (nh : gmap string double) (d : axis) :
  setDecelerationAsNeeded nh (dimension d) !! decel_param d =
  match nh !! decel_param d with
  | Some v => Some v
  | None => (fun accel => (- accel)%D) <$> nh !! accel_param d
  end.
Proof.
  unfold setDecelerationAsNeeded, get_parameter, set_parameter.
  fold (decel_param d). fold (accel_param d).
  destruct (nh !! decel_param d) as [v|] eqn:Hd; [exact Hd|].
  destruct (nh !! accel_param d) as [accel|] eqn:Ha; simpl.
  - apply lookup_insert_eq.
  - exact Hd.
Qed.

(** The renaming helper modelled from the specification writes no key but
    [current_name]. *)
Lemma moveDeprecatedParameter_spec_frame
  (nh : gmap string double) (current_name old_name key : string) :
  key <> current_name ->
  moveDeprecatedParameter_spec nh current_name old_name !! key = nh !! key.
Proof.
  intros Hne. unfold moveDeprecatedParameter_spec, get_parameter,
    set_parameter.
  destruct (nh !! old_name); [|reflexivity].
  destruct (nh !! current_name); [reflexivity|].
  apply lookup_insert_ne. congruence.
Qed.

Section InitializeFacts.

Variable moveDeprecatedParameter :
  gmap string double -> string -> string -> gmap string double.
Hypothesis move_frame :
  forall (nh : gmap string double) (current_name old_name key : string),
    key <> current_name ->
    moveDeprecatedParameter nh current_name old_name !! key = nh !! key.

(** After [initialize] the deceleration limit of each axis is the
    configured one if there is one, else the negated acceleration limit
    if there is one, else absent. *)
Lemma initialize_decel (nh : gmap string double) (d : axis) :
  initialize moveDeprecatedParameter nh !! decel_param d =
  match nh !! decel_param d with
  | Some v => Some v
  | None => (fun accel => (- accel)%D) <$> nh !! accel_param d
  end.
Proof.
  unfold initialize.
  change "x" with (dimension X). change "y" with (dimension Y).
  change "theta" with (dimension Theta).
  destruct d.
  - rewrite !setDecelerationAsNeeded_frame by discriminate.
    rewrite setDecelerationAsNeeded_own.
    rewrite !move_frame by discriminate. reflexivity.
  - rewrite setDecelerationAsNeeded_frame by discriminate.
    rewrite setDecelerationAsNeeded_own.
    rewrite !setDecelerationAsNeeded_frame by discriminate.
    rewrite !move_frame by discriminate. reflexivity.
  - rewrite setDecelerationAsNeeded_own.
    rewrite !setDecelerationAsNeeded_frame by discriminate.
    rewrite !move_frame by discriminate. reflexivity.
Qed.

End InitializeFacts.

(** The deceleration and acceleration limits are among the names the
    dynamic parameters client is asked to follow. *)
Lemma limits_registered (d : axis) :
  decel_param d ∈ registered_parameters /\
  accel_param d ∈ registered_parameters.
Proof. destruct d; split; set_solver. Qed.

(** The update stores what the batch holds under the deceleration name,
    and [0.0] when the batch has no such entry; the acceleration limit
    plays no part. *)
Lemma reconfigureCB_decel
  (dsrv : gmap string double) (k : KinematicParameters) (d : axis) :
  decel_lim_ d (reconfigureCB dsrv k) =
  get_event_param_or dsrv (decel_param d) 0.0%D.
Proof. destruct d; reflexivity. Qed.

(** C8. Let the renaming helper be any function that writes no parameter
    but [current_name].  For each axis [d] among x, y and theta: if
    [decel_lim_d] is not configured and [acc_lim_d] is, then after
    [initialize] the parameter [decel_lim_d] is the negation of
    [acc_lim_d]; if [decel_lim_d] is configured, [initialize] leaves it
    unchanged.  The default is applied at start-up only: [reconfigureCB]
    stores the value found under [decel_lim_d], and [0.0] when there is
    none, even if [acc_lim_d] is present. *)
Theorem C8_deceleration_defaults
  (moveDeprecatedParameter :
     gmap string double -> string -> string -> gmap string double) :
  (forall (nh : gmap string double) (current_name old_name key : string),
      key <> current_name ->
      moveDeprecatedParameter nh current_name old_name !! key = nh !! key) ->
  forall (nh : gmap string double) (d : axis),
    (forall accel : double,
        nh !! decel_param d = None -> nh !! accel_param d = Some accel ->
        initialize moveDeprecatedParameter nh !! decel_param d
        = Some (- accel)%D) /\
    (forall v : double,
        nh !! decel_param d = Some v ->
        initialize moveDeprecatedParameter nh !! decel_param d = Some v) /\
    (forall (dsrv : gmap string double) (k : KinematicParameters)
            (accel : double),
        dsrv !! decel_param d = None -> dsrv !! accel_param d = Some accel ->
        decel_lim_ d (reconfigureCB dsrv k) = 0.0%D).
Proof.
  intros move_frame nh d. split; [|split].
  - intros accel Hd Ha.
    rewrite (initialize_decel _ move_frame), Hd, Ha. reflexivity.
  - intros v Hd.
    rewrite (initialize_decel _ move_frame), Hd. reflexivity.
  - intros dsrv k accel Hd _.
    rewrite reconfigureCB_decel. unfold get_event_param_or.
    now rewrite Hd.
Qed.

(** C8 with the helper modelled from the specification: [acc_lim_x = 2.0]
    alone yields [decel_lim_x = -2.0]; a configured [decel_lim_x = -0.9]
    stays; an update whose batch holds [acc_lim_x = 2.0] alone stores
    [0.0] in [decel_lim_x_]. *)
Lemma C8_deceleration_defaults_witness :
  initialize moveDeprecatedParameter_spec {[ "acc_lim_x" := d_2_0 ]}
    !! "decel_lim_x" = Some (- d_2_0)%D /\
  initialize moveDeprecatedParameter_spec
    {[ "acc_lim_x" := d_2_0; "decel_lim_x" := (- d_0_9)%D ]}
    !! "decel_lim_x" = Some (- d_0_9)%D /\
  decel_lim_x_
    (reconfigureCB {[ "acc_lim_x" := d_2_0 ]} scenario_limits_other_axes)
  = 0.0%D.
Proof.
  pose proof (C8_deceleration_defaults moveDeprecatedParameter_spec
                moveDeprecatedParameter_spec_frame) as H.
  split; [|split].
  - destruct (H {[ "acc_lim_x" := d_2_0 ]} X) as (Hdefault & _ & _).
    apply (Hdefault d_2_0); reflexivity.
  - destruct (H {[ "acc_lim_x" := d_2_0; "decel_lim_x" := (- d_0_9)%D ]} X)
      as (_ & Hkeep & _).
    apply (Hkeep (- d_0_9)%D); reflexivity.
  - destruct (H {[ "acc_lim_x" := d_2_0 ]} X) as (_ & _ & Hupdate).
    apply (Hupdate {[ "acc_lim_x" := d_2_0 ]} scenario_limits_other_axes
             d_2_0); reflexivity.
Defined.

(** When the client's view at the first callback is the parameter store
    that [initialize] left, the defaulted value reaches the field. *)
Example default_reaches_field :
  decel_lim_x_
    (reconfigureCB
       (initialize moveDeprecatedParameter_spec {[ "acc_lim_x" := d_2_0 ]})
       KinematicParameters_ctor)
  = (- d_2_0)%D.
Proof. vm_compute. reflexivity. Qed.

(** * Further properties *)

(** ** More on doubles *)


Lemma mul_fabs (x : double) : (fabs x * fabs x)%D = (x * x)%D.
Proof. destruct x as [[|]|[|]| |[|] m e]; reflexivity. Qed.

Lemma mul_neg (x : double) : ((- x) * (- x))%D = (x * x)%D.
Proof. destruct x as [[|]|[|]| |[|] m e]; reflexivity. Qed.

Lemma fabs_neg (t : double) : fabs (- t)%D = fabs t.
Proof. destruct t; reflexivity. Qed.

Lemma fabs_fabs (t : double) : fabs (fabs t) = fabs t.
Proof. destruct t; reflexivity. Qed.

Lemma eqb_zero_fabs (t : double) : (fabs t == 0.0)%D = (t == 0.0)%D.
Proof. destruct t as [[|]|[|]| |[|] m e]; reflexivity. Qed.

Lemma eqb_zero_neg (t : double) : ((- t) == 0.0)%D = (t == 0.0)%D.
Proof. destruct t as [[|]|[|]| |[|] m e]; reflexivity. Qed.

Lemma vmag_sq_fabs (x y : double) :
  vmag_sq (fabs x) (fabs y) = vmag_sq x y.
Proof. unfold vmag_sq. now rewrite !mul_fabs. Qed.

Lemma vmag_sq_neg (x y : double) :
  vmag_sq (- x)%D (- y)%D = vmag_sq x y.
Proof. unfold vmag_sq. now rewrite !mul_neg. Qed.

(** A squared planar speed is NaN or has a clear sign bit. *)
Lemma vmag_sq_cases (x y : double) :
  is_nan (vmag_sq x y) = true \/ sign_clear (vmag_sq x y) = true.
Proof.
  destruct (is_nan x) eqn:Hx; [left; apply vmag_sq_nan; tauto|].
  destruct (is_nan y) eqn:Hy; [left; apply vmag_sq_nan; tauto|].
  right. now apply vmag_sq_sign_clear.
Qed.

(** Nothing that is NaN or has a clear sign bit is below a zero. *)
Lemma not_below_zero (v z : double) :
  is_nan v = true \/ sign_clear v = true ->
  (z == 0.0)%D = true -> (v < z)%D = false.
Proof.
  destruct v as [[|]|[|]| |[|] m e], z as [[|]|[|]| |[|] mz ez];
    cbv; intuition congruence.
Qed.

(** The squared planar speed of an infinite velocity is [+inf]. *)
Lemma vmag_sq_infinite (x y : double) :
  is_infinite x = true \/ is_infinite y = true ->
  is_nan x = false -> is_nan y = false ->
  vmag_sq x y = infinity.
Proof.
  intros H Hx Hy. unfold vmag_sq.
  pose proof (mul_self_sign_clear x Hx) as Sx.
  pose proof (mul_self_sign_clear y Hy) as Sy.
  destruct H as [H|H].
  - destruct x as [| [|] | |]; try discriminate;
      change (S754_infinity _ * S754_infinity _)%D with infinity;
      destruct (y * y)%D as [[|]|[|]| |[|] m e]; try discriminate;
      reflexivity.
  - destruct y as [| [|] | |]; try discriminate;
      change (S754_infinity _ * S754_infinity _)%D with infinity;
      destruct (x * x)%D as [[|]|[|]| |[|] m e]; try discriminate;
      reflexivity.
Qed.

Lemma infinity_gtb_finite (m : double) :
  is_finite m = true -> (infinity > m)%D = true.
Proof. destruct m as [[|]|[|]| |[|] mm e]; cbv; congruence. Qed.

(** ** The predicate: symmetries *)


(** X2. [isValidSpeed] reads its arguments through their magnitudes only:
    the answer for [(x, y, theta)] is the answer for
    [(|x|, |y|, |theta|)], so reversing a command, [(-x, -y, -theta)],
    never changes the answer. *)
Theorem X2_isValidSpeed_magnitudes
  (k : KinematicParameters) (x y theta : double) :
  isValidSpeed k x y theta = isValidSpeed k (fabs x) (fabs y) (fabs theta) /\
  isValidSpeed k (- x)%D (- y)%D (- theta)%D = isValidSpeed k x y theta.
Proof.
  split.
  - unfold isValidSpeed, below_both_floors, is_stop.
    now rewrite vmag_sq_fabs, fabs_fabs, eqb_zero_fabs.
  - unfold isValidSpeed, below_both_floors, is_stop.
    now rewrite vmag_sq_neg, fabs_neg, eqb_zero_neg.
Qed.

(** ** The predicate: bounds that never or always reject *)

(** X3. With the upper planar-speed bound disabled and one of the two
    floors disabled (negative values), [isValidSpeed] accepts every command
    except the exact stop: it returns the negation of
    [x*x + y*y == 0.0 && theta == 0.0]. *)
Theorem X3_all_disabled_accepts_all_but_stop
  (k : KinematicParameters) (x y theta : double) :
  (max_speed_xy_ k < 0.0)%D = true ->
  (min_speed_xy_ k < 0.0)%D = true \/ (min_speed_theta_ k < 0.0)%D = true ->
  isValidSpeed k x y theta =
  negb ((vmag_sq x y == 0.0)%D && (theta == 0.0)%D).
Proof.
  intros Hmax Hfloor. rewrite isValidSpeed_checks.
  unfold exceeds_max_speed, below_both_floors, is_stop.
  rewrite (negative_not_geb_zero _ Hmax).
  destruct Hfloor as [H|H]; rewrite (negative_not_geb_zero _ H);
    cbn [andb negb]; now rewrite ?andb_false_r.
Qed.

Lemma X3_all_disabled_accepts_all_but_stop_witness :
  isValidSpeed all_disabled d_2_pow_600 d_0_9 0.0%D =
  negb ((vmag_sq d_2_pow_600 d_0_9 == 0.0)%D && (0.0 == 0.0)%D).
Proof.
  apply X3_all_disabled_accepts_all_but_stop;
    [|left]; vm_compute; reflexivity.
Defined.

(** X4. A floor of zero never rejects: when [min_speed_xy_sq_] or
    [min_speed_theta_] compares equal to [0.0], the check of the two floors
    fires for no input, and [isValidSpeed] answers as the predicate
    without it.  (An upper bound of zero, in contrast, is enforced.) *)
Theorem X4_zero_floor_never_rejects
  (k : KinematicParameters) (x y theta : double) :
  (min_speed_xy_sq_ k == 0.0)%D = true \/
  (min_speed_theta_ k == 0.0)%D = true ->
  below_both_floors k (vmag_sq x y) theta = false /\
  isValidSpeed k x y theta = isValidSpeed_without_floor_check k x y theta.
Proof.
  intros H.
  assert (below_both_floors k (vmag_sq x y) theta = false) as Hb.
  { unfold below_both_floors. destruct H as [H|H].
    - rewrite (not_below_zero _ _ (vmag_sq_cases x y) H).
      now rewrite !andb_false_r.
    - rewrite (not_below_zero (fabs theta) _) by
        (trivial; destruct theta; simpl; auto).
      now rewrite !andb_false_r. }
  split; [exact Hb|].
  rewrite isValidSpeed_checks, without_floor_check_checks, Hb.
  cbn [negb]. now rewrite andb_true_r.
Qed.

Lemma X4_zero_floor_never_rejects_witness :
  below_both_floors KinematicParameters_ctor (vmag_sq 0.0 0.0) d_0_05
  = false /\
  isValidSpeed KinematicParameters_ctor 0.0%D 0.0%D d_0_05 =
  isValidSpeed_without_floor_check KinematicParameters_ctor
    0.0%D 0.0%D d_0_05.
Proof.
  apply X4_zero_floor_never_rejects. left. reflexivity.
Defined.

(** X5. A limit that is NaN disables its check.  If [max_speed_xy_] or
    [max_speed_xy_sq_] is NaN the upper planar-speed check never fires; if
    [min_speed_xy_], [min_speed_xy_sq_] or [min_speed_theta_] is NaN the
    check of the two floors never fires. *)
Theorem X5_nan_limit_disables_check :
  (forall (k : KinematicParameters) (x y theta : double),
      is_nan (max_speed_xy_ k) = true \/
      is_nan (max_speed_xy_sq_ k) = true ->
      isValidSpeed k x y theta =
      isValidSpeed_without_max_check k x y theta) /\
  (forall (k : KinematicParameters) (x y theta : double),
      is_nan (min_speed_xy_ k) = true \/
      is_nan (min_speed_xy_sq_ k) = true \/
      is_nan (min_speed_theta_ k) = true ->
      isValidSpeed k x y theta =
      isValidSpeed_without_floor_check k x y theta).
Proof.
  split; intros k x y theta H;
    rewrite isValidSpeed_checks, ?without_max_check_checks,
      ?without_floor_check_checks;
    unfold exceeds_max_speed, below_both_floors.
  - destruct H as [H|H].
    + destruct (nan_comparisons_false (max_speed_xy_ k) 0.0%D)
        as (_ & _ & _ & -> & _); [tauto|]. reflexivity.
    + destruct (nan_comparisons_false (vmag_sq x y) (max_speed_xy_sq_ k))
        as (_ & _ & -> & _); [tauto|]. now rewrite andb_false_r.
  - destruct H as [H|[H|H]].
    + destruct (nan_comparisons_false (min_speed_xy_ k) 0.0%D)
        as (_ & _ & _ & -> & _); [tauto|].
      cbn [andb negb]. now rewrite andb_true_r.
    + destruct (nan_comparisons_false (vmag_sq x y) (min_speed_xy_sq_ k))
        as (_ & -> & _); [tauto|].
      rewrite andb_false_r. cbn [andb negb]. now rewrite andb_true_r.
    + destruct (nan_comparisons_false (min_speed_theta_ k) 0.0%D)
        as (_ & _ & _ & -> & _); [tauto|].
      rewrite andb_false_r. cbn [andb negb]. now rewrite andb_true_r.
Qed.

(** X5 in the state an update leaves when the batch holds NaN for
    [max_speed_xy], and in the one it leaves for a NaN [min_speed_theta]. *)
Lemma X5_nan_limit_disables_check_witness :
  isValidSpeed
    (reconfigureCB {[ "max_speed_xy" := nan ]} scenario_limits)
    d_2_0 d_2_0 d_0_1 =
  isValidSpeed_without_max_check
    (reconfigureCB {[ "max_speed_xy" := nan ]} scenario_limits)
    d_2_0 d_2_0 d_0_1 /\
  isValidSpeed
    (reconfigureCB (<[ "min_speed_theta" := nan ]> scenario_update)
       scenario_limits)
    d_0_05 0.0%D d_0_05 =
  isValidSpeed_without_floor_check
    (reconfigureCB (<[ "min_speed_theta" := nan ]> scenario_update)
       scenario_limits)
    d_0_05 0.0%D d_0_05.
Proof.
  destruct X5_nan_limit_disables_check as [Hmax Hfloor]. split.
  - apply Hmax. left. reflexivity.
  - apply Hfloor. right. right. reflexivity.
Defined.

(** X6. Infinite and overflowing speeds meet the upper bound.  When [x] or
    [y] is infinite and neither is NaN, [x*x + y*y] is [+inf]; and whenever
    [x*x + y*y] is [+inf] (also by overflow of a finite speed), an enabled
    upper bound whose squared cache is finite rejects the command, for
    every [theta]. *)
Theorem X6_infinite_speed_rejected :
  (forall x y : double,
      is_infinite x = true \/ is_infinite y = true ->
      is_nan x = false -> is_nan y = false ->
      vmag_sq x y = infinity) /\
  (forall (k : KinematicParameters) (x y theta : double),
      (max_speed_xy_ k >= 0.0)%D = true ->
      is_finite (max_speed_xy_sq_ k) = true ->
      vmag_sq x y = infinity ->
      isValidSpeed k x y theta = false).
Proof.
  split; [exact vmag_sq_infinite|].
  intros k x y theta Hen Hfin Hv.
  unfold isValidSpeed, exceeds_max_speed.
  now rewrite Hen, Hv, (infinity_gtb_finite _ Hfin).
Qed.

Lemma X6_infinite_speed_rejected_witness :
  vmag_sq (- infinity)%D d_0_1 = infinity /\
  isValidSpeed scenario_limits d_2_pow_600 0.0%D d_0_2 = false.
Proof.
  destruct X6_infinite_speed_rejected as [Hinf Hrej]. split.
  - apply Hinf; [left|..]; reflexivity.
  - apply Hrej; vm_compute; reflexivity.
Defined.

(** ** The update *)

Lemma registered_cases (n : string) :
  n ∈ registered_parameters ->
  n = "min_vel_x" \/ n = "min_vel_y" \/ n = "max_vel_x" \/
  n = "max_vel_y" \/ n = "max_vel_theta" \/ n = "min_speed_xy" \/
  n = "max_speed_xy" \/ n = "min_speed_theta" \/ n = "acc_lim_x" \/
  n = "acc_lim_y" \/ n = "acc_lim_theta" \/ n = "decel_lim_x" \/
  n = "decel_lim_y" \/ n = "decel_lim_theta".
Proof.
  unfold registered_parameters. rewrite !elem_of_cons, elem_of_nil. tauto.
Qed.

(** Each registered name has a field, and the update assigns it. *)
Lemma reconfigureCB_limit_field
  (dsrv : gmap string double) (k : KinematicParameters) (n : string) :
  n ∈ registered_parameters ->
  limit_field n (reconfigureCB dsrv k) =
  Some (get_event_param_or dsrv n 0.0%D).
Proof.
  intros H. apply registered_cases in H.
  repeat (destruct H as [->|H]; [reflexivity|]). now subst n.
Qed.

(** The update does not look at the state it replaces. *)
Lemma reconfigureCB_forgets
  (dsrv : gmap string double) (k k' : KinematicParameters) :
  reconfigureCB dsrv k = reconfigureCB dsrv k'.
Proof. reflexivity. Qed.

Lemma run_app (ops ops' : list operation) :
  forall k : KinematicParameters,
    run k (ops ++ ops') = run (run k ops) ops'.
Proof.
  induction ops as [|o ops IH]; intros k; simpl; [reflexivity|apply IH].
Qed.

Lemma run_queries (qs : list operation) :
  forallb is_query qs = true ->
  forall k : KinematicParameters, run k qs = k.
Proof.
  induction qs as [|[dsrv|x y theta] qs IH]; simpl; intros H k.
  - reflexivity.
  - discriminate.
  - apply IH, H.
Qed.

(** X7. The update reads nothing but the registered names: two batches
    that agree on the fourteen names handed to [add_parameters] leave the
    same limits, whatever else the batches hold and whatever the limits
    were before. *)
Theorem X7_update_reads_registered_only
  (d1 d2 : gmap string double) (k1 k2 : KinematicParameters) :
  (forall n : string, n ∈ registered_parameters -> d1 !! n = d2 !! n) ->
  reconfigureCB d1 k1 = reconfigureCB d2 k2.
Proof.
  intros H. unfold reconfigureCB, UPDATE_PARAMETER, get_event_param_or.
  rewrite !H by (unfold registered_parameters; set_solver).
  reflexivity.
Qed.

Lemma X7_update_reads_registered_only_witness :
  reconfigureCB (<[ "max_rot_vel" := d_2_0 ]> scenario_update)
    scenario_limits
  = reconfigureCB scenario_update all_disabled.
Proof.
  apply X7_update_reads_registered_only.
  intros n H. apply lookup_insert_ne. intros <-.
  apply registered_cases in H.
  repeat (destruct H as [H|H]; [discriminate|]). discriminate.
Defined.

(** X8. Every registered name reaches its field: after an update the
    field of a registered name holds the value the batch has under that
    name, and [0.0] if the batch has none, whatever the field held
    before. *)
Theorem X8_update_stores_batch_values
  (dsrv : gmap string double) (k : KinematicParameters) (n : string) :
  n ∈ registered_parameters ->
  (forall v : double,
      limit_field n (reconfigureCB (<[ n := v ]> dsrv) k) = Some v) /\
  (dsrv !! n = None -> limit_field n (reconfigureCB dsrv k) = Some 0.0%D).
Proof.
  intros H. split.
  - intros v. rewrite (reconfigureCB_limit_field _ _ _ H).
    unfold get_event_param_or. now rewrite lookup_insert_eq.
  - intros Hnone. rewrite (reconfigureCB_limit_field _ _ _ H).
    unfold get_event_param_or. now rewrite Hnone.
Qed.

(** X8 for [acc_lim_theta]: a batch value reaches the field, and a batch
    without the name resets a field that held [0.9]. *)
Lemma X8_update_stores_batch_values_witness :
  acc_lim_theta_
    (reconfigureCB (<[ "acc_lim_theta" := d_0_2 ]> scenario_update)
       scenario_limits_other_axes) = d_0_2 /\
  acc_lim_theta_ scenario_limits_other_axes = d_0_9 /\
  acc_lim_theta_ (reconfigureCB scenario_update scenario_limits_other_axes)
  = 0.0%D.
Proof.
  assert ("acc_lim_theta" ∈ registered_parameters) as Hreg
    by (unfold registered_parameters; set_solver).
  destruct (X8_update_stores_batch_values scenario_update
              scenario_limits_other_axes "acc_lim_theta" Hreg)
    as [Hput Hmiss].
  split; [|split].
  - apply (inj Some). exact (Hput d_0_2).
  - reflexivity.
  - apply (inj Some). apply Hmiss. reflexivity.
Defined.

(** X9. The last update wins: after any sequence of operations that ends
    with an update followed by queries only, the limits are those the
    update computes from its batch alone; earlier updates and the state
    before leave no trace. *)
Theorem X9_last_update_wins
  (k k' : KinematicParameters) (ops qs : list operation)
  (dsrv : gmap string double) :
  forallb is_query qs = true ->
  run k (ops ++ Update dsrv :: qs) = reconfigureCB dsrv k'.
Proof.
  intros Hq. rewrite run_app. simpl. rewrite (run_queries qs Hq).
  apply reconfigureCB_forgets.
Qed.

Lemma X9_last_update_wins_witness :
  run all_disabled
    ([ Update {[ "min_speed_xy" := d_2_0; "acc_lim_x" := d_0_9 ]};
       Query d_0_1 d_0_1 d_0_1 ]
     ++ Update scenario_update :: [ Query d_0_05 0.0%D d_0_05 ])
  = reconfigureCB scenario_update KinematicParameters_ctor.
Proof. apply X9_last_update_wins. reflexivity. Defined.

(** X10. A batch without [max_speed_xy] stops all translation: the update
    stores [0.0] as the upper bound and as its square, the bound is
    enabled, and every command whose squared planar speed is not zero
    (neither [x] nor [y] being NaN) is rejected afterwards. *)
Theorem X10_update_without_max_speed_rejects_translation
  (dsrv : gmap string double) (k : KinematicParameters)
  (x y theta : double) :
  dsrv !! "max_speed_xy" = None ->
  is_nan x = false -> is_nan y = false ->
  (vmag_sq x y == 0.0)%D = false ->
  isValidSpeed (reconfigureCB dsrv k) x y theta = false.
Proof.
  intros Hnone Hx Hy Hv. unfold isValidSpeed, exceeds_max_speed.
  cbv beta iota zeta delta
    [reconfigureCB max_speed_xy_ max_speed_xy_sq_ UPDATE_PARAMETER
       get_event_param_or].
  rewrite Hnone.
  change (0.0 * 0.0)%D with 0.0%D. change (0.0 >= 0.0)%D with true.
  rewrite (sign_clear_gtb_zero _ (vmag_sq_sign_clear x y Hx Hy)), Hv.
  reflexivity.
Qed.

(** X10 for a batch that only raises the floors: the command
    [(0.9, 0, 0)], well within the former bound [1.0], is rejected. *)
Lemma X10_update_without_max_speed_rejects_translation_witness :
  isValidSpeed
    (reconfigureCB {[ "min_speed_xy" := d_0_2; "min_speed_theta" := d_0_1 ]}
       scenario_limits)
    d_0_9 0.0%D 0.0%D = false.
Proof.
  apply X10_update_without_max_speed_rejects_translation;
    vm_compute; reflexivity.
Defined.

(** ** The deceleration helper on any dimension *)

Lemma accel_name_not_decel_name (a b : string) :
  "acc_lim_" +:+ a <> "decel_lim_" +:+ b.
Proof. simpl. discriminate. Qed.

Lemma decel_name_inj (a b : string) :
  "decel_lim_" +:+ a = "decel_lim_" +:+ b -> a = b.
Proof. simpl. intros H. now injection H. Qed.

(** Every lookup after [setDecelerationAsNeeded], in one equation. *)
Lemma setDecelerationAsNeeded_lookup
  (nh : gmap string double) (dim key : string) :
  setDecelerationAsNeeded nh dim !! key =
  if decide (key = "decel_lim_" +:+ dim) then
    match nh !! key with
    | Some v => Some v
    | None => (fun accel => (- accel)%D) <$> nh !! ("acc_lim_" +:+ dim)
    end
  else nh !! key.
Proof.
  unfold setDecelerationAsNeeded, get_parameter, set_parameter.
  cbv zeta. case_decide as Hkey.
  - subst key. destruct (nh !! ("decel_lim_" +:+ dim)) as [v|] eqn:Hd;
      [exact Hd|].
    destruct (nh !! ("acc_lim_" +:+ dim)) as [accel|] eqn:Ha.
    + apply lookup_insert_eq.
    + exact Hd.
  - destruct (nh !! ("decel_lim_" +:+ dim)); [reflexivity|].
    destruct (nh !! ("acc_lim_" +:+ dim)); [|reflexivity].
    apply lookup_insert_ne. congruence.
Qed.

(** X11. [setDecelerationAsNeeded] is idempotent: a second call for the
    same dimension changes nothing. *)
Theorem X11_setDecelerationAsNeeded_idempotent
  (nh : gmap string double) (dim : string) :
  setDecelerationAsNeeded (setDecelerationAsNeeded nh dim) dim =
  setDecelerationAsNeeded nh dim.
Proof.
  unfold setDecelerationAsNeeded, get_parameter, set_parameter. cbv zeta.
  destruct (nh !! ("decel_lim_" +:+ dim)) as [v|] eqn:Hd.
  - now rewrite Hd.
  - destruct (nh !! ("acc_lim_" +:+ dim)) as [accel|] eqn:Ha.
    + now rewrite lookup_insert_eq.
    + now rewrite Hd, Ha.
Qed.

(** X12. [setDecelerationAsNeeded] changes the parameters exactly when the
    deceleration limit of the dimension is missing and its acceleration
    limit is present; with the deceleration set, or with both missing, the
    parameters stay as they are. *)
Theorem X12_setDecelerationAsNeeded_changes_iff
  (nh : gmap string double) (dim : string) :
  setDecelerationAsNeeded nh dim <> nh <->
  nh !! ("decel_lim_" +:+ dim) = None /\
  is_Some (nh !! ("acc_lim_" +:+ dim)).
Proof.
  unfold setDecelerationAsNeeded, get_parameter, set_parameter. cbv zeta.
  destruct (nh !! ("decel_lim_" +:+ dim)) as [v|] eqn:Hd.
  - split; [congruence|]. intros [H _]. discriminate.
  - destruct (nh !! ("acc_lim_" +:+ dim)) as [accel|] eqn:Ha.
    + split; [eauto|]. intros _ Heq.
      apply (f_equal (fun m => m !! ("decel_lim_" +:+ dim))) in Heq.
      rewrite lookup_insert_eq, Hd in Heq. discriminate.
    + split; [congruence|]. intros [_ [a H]]. discriminate.
Qed.

(** X13. [setDecelerationAsNeeded] removes and overwrites nothing: every
    parameter keeps its value, and the one parameter that can appear is
    the deceleration limit of the dimension. *)
Theorem X13_setDecelerationAsNeeded_extends
  (nh : gmap string double) (dim : string) :
  nh ⊆ setDecelerationAsNeeded nh dim /\
  (forall key : string,
      key <> "decel_lim_" +:+ dim ->
      setDecelerationAsNeeded nh dim !! key = nh !! key).
Proof.
  split.
  - unfold setDecelerationAsNeeded, get_parameter, set_parameter. cbv zeta.
    destruct (nh !! ("decel_lim_" +:+ dim)) as [v|] eqn:Hd; [reflexivity|].
    destruct (nh !! ("acc_lim_" +:+ dim)); [|reflexivity].
    now apply insert_subseteq.
  - intros key Hne. rewrite setDecelerationAsNeeded_lookup.
    now rewrite decide_False.
Qed.

Lemma X13_setDecelerationAsNeeded_extends_witness :
  setDecelerationAsNeeded {[ "acc_lim_y" := d_0_9 ]} "y" !! "acc_lim_y"
  = Some d_0_9.
Proof.
  destruct (X13_setDecelerationAsNeeded_extends
              {[ "acc_lim_y" := d_0_9 ]} "y") as [_ Hother].
  rewrite Hother; [reflexivity|discriminate].
Defined.

(** X14. Calls of [setDecelerationAsNeeded] commute: the parameters after
    two calls do not depend on the order of the two dimensions. *)
Theorem X14_setDecelerationAsNeeded_commute
  (nh : gmap string double) (d1 d2 : string) :
  setDecelerationAsNeeded (setDecelerationAsNeeded nh d1) d2 =
  setDecelerationAsNeeded (setDecelerationAsNeeded nh d2) d1.
Proof.
  destruct (decide (d1 = d2)) as [->|Hne]; [reflexivity|].
  apply map_eq. intros key.
  rewrite !setDecelerationAsNeeded_lookup.
  pose proof (accel_name_not_decel_name d1 d2) as H12.
  pose proof (accel_name_not_decel_name d2 d1) as H21.
  destruct (decide (key = "decel_lim_" +:+ d2)) as [E2|K2];
    destruct (decide (key = "decel_lim_" +:+ d1)) as [E1|K1].
  - rewrite E2 in E1. apply decel_name_inj in E1. congruence.
  - now rewrite (decide_False (P := _ = "decel_lim_" +:+ d1)) by exact H21.
  - now rewrite (decide_False (P := _ = "decel_lim_" +:+ d2)) by exact H12.
  - reflexivity.
Qed.

(** ** Start-up as a whole *)

Section InitializeFrame.

Variable moveDeprecatedParameter :
  gmap string double -> string -> string -> gmap string double.
Hypothesis move_frame :
  forall (nh : gmap string double) (current_name old_name key : string),
    key <> current_name ->
    moveDeprecatedParameter nh current_name old_name !! key = nh !! key.

Lemma initialize_other (nh : gmap string double) (key : string) :
  key ∉ written_by_initialize ->
  initialize moveDeprecatedParameter nh !! key = nh !! key.
Proof.
  unfold written_by_initialize. rewrite !not_elem_of_cons.
  intros (H1 & H2 & H3 & H4 & H5 & H6 & H7 & _).
  unfold initialize.
  change "x" with (dimension X). change "y" with (dimension Y).
  change "theta" with (dimension Theta).
  rewrite (setDecelerationAsNeeded_frame _ Theta) by exact H7.
  rewrite (setDecelerationAsNeeded_frame _ Y) by exact H6.
  rewrite (setDecelerationAsNeeded_frame _ X) by exact H5.
  now rewrite !move_frame by assumption.
Qed.

Lemma accel_param_not_written (d : axis) :
  accel_param d ∉ written_by_initialize.
Proof.
  unfold written_by_initialize. rewrite !not_elem_of_cons, elem_of_nil.
  destruct d; repeat split; try discriminate; tauto.
Qed.

End InitializeFrame.

Lemma reconfigureCB_acc
  (dsrv : gmap string double) (k : KinematicParameters) (d : axis) :
  acc_lim_ d (reconfigureCB dsrv k) =
  get_event_param_or dsrv (accel_param d) 0.0%D.
Proof. destruct d; reflexivity. Qed.

(** X15. [initialize] leaves every parameter alone except the four
    current names of the renamed parameters and the three deceleration
    limits, for any renaming helper that writes no parameter but
    [current_name]; in particular it never changes an acceleration limit
    or a deprecated name. *)
Theorem X15_initialize_frame
  (moveDeprecatedParameter :
     gmap string double -> string -> string -> gmap string double) :
  (forall (nh : gmap string double) (current_name old_name key : string),
      key <> current_name ->
      moveDeprecatedParameter nh current_name old_name !! key = nh !! key) ->
  forall (nh : gmap string double) (key : string),
    key ∉ written_by_initialize ->
    initialize moveDeprecatedParameter nh !! key = nh !! key.
Proof.
  intros move_frame nh key. now apply initialize_other.
Qed.

Lemma X15_initialize_frame_witness :
  initialize moveDeprecatedParameter_spec
    {[ "acc_lim_x" := d_2_0; "max_rot_vel" := d_0_9 ]} !! "acc_lim_x"
  = Some d_2_0 /\
  initialize moveDeprecatedParameter_spec
    {[ "acc_lim_x" := d_2_0; "max_rot_vel" := d_0_9 ]} !! "max_rot_vel"
  = Some d_0_9.
Proof.
  pose proof (X15_initialize_frame moveDeprecatedParameter_spec
                moveDeprecatedParameter_spec_frame
                {[ "acc_lim_x" := d_2_0; "max_rot_vel" := d_0_9 ]}) as H.
  split; rewrite H; try reflexivity;
    unfold written_by_initialize; rewrite !not_elem_of_cons, elem_of_nil;
    repeat split; try discriminate; tauto.
Defined.

(** X16. After [initialize] the deceleration limit of an axis is set if
    and only if its deceleration limit or its acceleration limit was set
    before: an axis with neither stays without a deceleration limit. *)
Theorem X16_initialize_decel_set_iff
  (moveDeprecatedParameter :
     gmap string double -> string -> string -> gmap string double) :
  (forall (nh : gmap string double) (current_name old_name key : string),
      key <> current_name ->
      moveDeprecatedParameter nh current_name old_name !! key = nh !! key) ->
  forall (nh : gmap string double) (d : axis),
    is_Some (initialize moveDeprecatedParameter nh !! decel_param d) <->
    is_Some (nh !! decel_param d) \/ is_Some (nh !! accel_param d).
Proof.
  intros move_frame nh d. rewrite (initialize_decel _ move_frame).
  destruct (nh !! decel_param d) as [v|], (nh !! accel_param d) as [a|];
    simpl; split; eauto; intros [[? ?]|[? ?]]; eauto; discriminate.
Qed.

Lemma X16_initialize_decel_set_iff_witness :
  is_Some (initialize moveDeprecatedParameter_spec
             {[ "acc_lim_theta" := d_0_9 ]} !! "decel_lim_theta") /\
  ~ is_Some (initialize moveDeprecatedParameter_spec
               {[ "acc_lim_theta" := d_0_9 ]} !! "decel_lim_y").
Proof.
  pose proof (X16_initialize_decel_set_iff moveDeprecatedParameter_spec
                moveDeprecatedParameter_spec_frame
                {[ "acc_lim_theta" := d_0_9 ]}) as H.
  split.
  - apply (H Theta). right. exists d_0_9. reflexivity.
  - intros Hset. apply (H Y) in Hset.
    destruct Hset as [[v Hv]|[v Hv]]; discriminate.
Defined.

(** X17. Start-up followed by the first update: when the batch is the
    parameter set that [initialize] leaves, an axis configured with an
    acceleration limit and no deceleration limit ends with the
    acceleration limit in its [acc_lim] field and its negation in its
    [decel_lim] field. *)
Theorem X17_initialize_then_update
  (moveDeprecatedParameter :
     gmap string double -> string -> string -> gmap string double) :
  (forall (nh : gmap string double) (current_name old_name key : string),
      key <> current_name ->
      moveDeprecatedParameter nh current_name old_name !! key = nh !! key) ->
  forall (nh : gmap string double) (k : KinematicParameters) (d : axis)
         (accel : double),
    nh !! decel_param d = None -> nh !! accel_param d = Some accel ->
    acc_lim_ d (reconfigureCB (initialize moveDeprecatedParameter nh) k)
    = accel /\
    decel_lim_ d (reconfigureCB (initialize moveDeprecatedParameter nh) k)
    = (- accel)%D.
Proof.
  intros move_frame nh k d accel Hd Ha.
  rewrite reconfigureCB_acc, reconfigureCB_decel.
  unfold get_event_param_or.
  rewrite (initialize_other _ move_frame) by apply accel_param_not_written.
  rewrite (initialize_decel _ move_frame), Hd, Ha. simpl. auto.
Qed.

Lemma X17_initialize_then_update_witness :
  acc_lim_y_
    (reconfigureCB
       (initialize moveDeprecatedParameter_spec {[ "acc_lim_y" := d_2_0 ]})
       KinematicParameters_ctor) = d_2_0 /\
  decel_lim_y_
    (reconfigureCB
       (initialize moveDeprecatedParameter_spec {[ "acc_lim_y" := d_2_0 ]})
       KinematicParameters_ctor) = (- d_2_0)%D.
Proof.
  apply (X17_initialize_then_update moveDeprecatedParameter_spec
           moveDeprecatedParameter_spec_frame
           {[ "acc_lim_y" := d_2_0 ]} KinematicParameters_ctor Y d_2_0);
    reflexivity.
Defined.
